(** * The chat endpoint of [backend/main.py]

    A shallow embedding of the request handlers that [backend/main.py]
    registers for [POST /chat], of the start-up hook, and of the route table
    they are registered in.  The file registers [chat] three times (at the
    decorators of lines 37, 120 and 161): every definition is embedded, each
    in a module of its own, and the route table records the order in which
    they are registered.

    Calls to the external services (text generation, chat persistence, the
    vector database) and the diagnostics written by [print] are recorded in a
    trace, so that what a handler does, and what it does not do, can be
    stated. *)

From Stdlib Require Import ZArith NArith String Ascii List Lia.
From stdpp Require Import base strings pretty gmap.

(** ** Python values *)

(** A Python [str] is a sequence of characters (code points).  It is
    represented by the [string] of the bytes of its UTF-8 encoding, as the
    string literals of this file are: a character is one byte that is not a
    continuation byte, followed by its continuation bytes.  [len] and
    slices count characters, not bytes. *)

(** The bytes [10xxxxxx], which continue a character. *)
Definition is_continuation (c : ascii) : bool :=
  match c with
  | Ascii _ _ _ _ _ _ b6 b7 => b7 && negb b6
  end.

(** [len(s)]: the number of characters of [s]. *)
Fixpoint len (s : string) : nat :=
  match s with
  | EmptyString => 0
  | String c s' => if is_continuation c then len s' else S (len s')
  end.

(** [s[:n]] for a non-negative [n]: the first [n] characters of [s], or all
    of [s] when it has fewer.  A slice never raises. *)
Fixpoint slice_to (s : string) (n : nat) : string :=
  match s with
  | EmptyString => EmptyString
  | String c s' =>
      if is_continuation c then String c (slice_to s' n)
      else match n with
           | O => EmptyString
           | S n' => String c (slice_to s' n')
           end
  end.

(** The UTF-8 encoding of a sequence of characters, each given by its code
    point (a Python character is a code point below [0x110000]). *)
Definition continuation (x : N) : ascii := ascii_of_N (128 + x mod 64).

Definition utf8_char (cp : N) : string :=
  if (cp <? 128)%N then String (ascii_of_N cp) ""
  else if (cp <? 2048)%N then
    String (ascii_of_N (192 + cp / 64)) (String (continuation cp) "")
  else if (cp <? 65536)%N then
    String (ascii_of_N (224 + cp / 4096))
      (String (continuation (cp / 64)) (String (continuation cp) ""))
  else
    String (ascii_of_N (240 + (cp / 262144) mod 8))
      (String (continuation (cp / 4096))
         (String (continuation (cp / 64)) (String (continuation cp) ""))).

Fixpoint utf8 (cps : list N) : string :=
  match cps with
  | [] => ""
  | cp :: cps' => utf8_char cp +:+ utf8 cps'
  end.

(** [s * n] *)
Fixpoint str_mul (s : string) (n : nat) : string :=
  match n with
  | O => EmptyString
  | S n' => s +:+ str_mul s n'
  end.

(** The test [if x:] on an [Optional[str]]: [None] and the empty string are
    false, every other string is true; in the true branch [x] is that
    string. *)
Definition truthy (x : option string) : option string :=
  match x with
  | Some (String c s) => Some (String c s)
  | Some EmptyString => None
  | None => None
  end.

(** An [Optional[str]] interpolated in an f-string. *)
Definition format_optional (x : option string) : string :=
  match x with
  | Some s => s
  | None => "None"
  end.

(** A dict literal with string keys and string values. *)
Abbreviation dict := (gmap string string).

(** ** Requests, responses, exceptions *)

(** Modelled from the spec: [models/schemas.py], which declares
    [ChatMessage] and [ChatResponse], is not among the sources.  The request
    has a required text [message] and an optional text [selected_text]; the
    response has the generated text and an ordered sequence of source
    attributions. *)
Record ChatMessage := {
  message : string;
  selected_text : option string
}.

Record ChatResponse := {
  response : string;
  sources : list dict
}.

(** An exception raised by an external service, as the handlers observe it:
    through [type(e).__name__] and [str(e)]. *)
Record Exception := {
  type_name : string;
  str : string
}.

(** [HTTPException(status_code=..., detail=...)], which the framework turns
    into the response [status_code {detail: ...}]. *)
Record HTTPException := {
  status_code : Z;
  detail : string
}.

(** What the body of the outer [try] of the third definition can raise: the
    [HTTPException] of its inner handler, or any other exception. *)
Inductive raised :=
| Http (he : HTTPException)
| Other (e : Exception).

(** ** The external services *)

(** [services/gemini_service.py], [services/database.py] and
    [services/qdrant_service.py] are external collaborators: a method is any
    function from its arguments to a result or a raised exception. *)
Record GeminiService := {
  generate_response : string -> string -> Exception + string
}.

Record DatabaseService := {
  initialize_tables : Exception + unit;
  save_chat : string -> string -> option string -> Exception + unit
}.

Record QdrantService := {
  initialize_collection : Z -> Exception + unit
}.

(** ** Effects *)

Inductive event :=
| Stdout (line : string)
| Traceback
| Gemini_generate_response (message context : string)
| Db_initialize_tables
| Db_save_chat (user_message bot_response : string) (selected_text : option string)
| Qdrant_initialize_collection (vector_size : Z).

(** A computation that may raise an [E]: its outcome, and the events it
    performed, oldest first. *)
Definition M (E A : Type) : Type := (E + A) * list event.

#[global] Instance M_ret {E} : MRet (M E) := fun A a => (inr a, []).

Definition raise {E A} (e : E) : M E A := (inl e, []).

#[global] Instance M_bind {E} : MBind (M E) := fun A B k m =>
  match m with
  | (inl e, t) => (inl e, t)
  | (inr a, t) => let (r, t') := k a in (r, t ++ t')
  end.

(** [try: m except ... as e: h e] *)
Definition try_except {E E' A} (m : M E A) (h : E -> M E' A) : M E' A :=
  match m with
  | (inl e, t) => let (r, t') := h e in (r, t ++ t')
  | (inr a, t) => (inr a, t)
  end.

Definition emit {E} (ev : event) : M E unit := (inr tt, [ev]).

(** A service call: the call is recorded, then its outcome is the
    computation's. *)
Definition call {E A} (ev : event) (r : E + A) : M E A := (r, [ev]).

Definition print {E} (line : string) : M E unit := emit (Stdout line).
Definition print_exc {E} : M E unit := emit Traceback.

Definition outcome {E A} (m : M E A) : E + A := fst m.
Definition trace {E A} (m : M E A) : list event := snd m.

(** ** The handlers *)

(** The context of a request without a selection (lines 47-49, 134-136 and
    180-182: the same triple-quoted literal, whose continuation lines keep
    their twelve leading spaces and whose first line ends in a space). *)
Definition system_context : string :=
  "You are a helpful assistant for a Physical AI & Humanoid Robotics textbook. " +:+ String "010" (
  "            Answer questions about ROS 2, Gazebo, NVIDIA Isaac, humanoid robots, and robotics in general." +:+ String "010" (
  "            Be clear, technical but accessible, and provide practical examples when possible.")).

Section services.
Context (gemini_service : GeminiService)
        (qdrant_service : QdrantService)
        (db_service : DatabaseService).

(** [gemini_service.generate_response(message, context)] *)
Definition gemini_generate (msg context : string) : M Exception string :=
  call (Gemini_generate_response msg context)
       (generate_response gemini_service msg context).

(** [await db_service.save_chat(user_message=..., bot_response=...,
    selected_text=...)] *)
Definition db_save_chat (user_message bot_response : string)
    (sel : option string) : M Exception unit :=
  call (Db_save_chat user_message bot_response sel)
       (save_chat db_service user_message bot_response sel).

(** Lines 25-31. *)
Definition startup_event : M Exception unit :=
  print "🚀 Starting up..." ;;
  call Db_initialize_tables (initialize_tables db_service) ;;
  call (Qdrant_initialize_collection 768)
       (initialize_collection qdrant_service 768) ;;
  print "✅ Server ready!".
End services.

(** The definition at lines 37-65. *)
Module At37.
Section handler.
Context (gemini_service : GeminiService) (db_service : DatabaseService).

Definition chat (req : ChatMessage) : M HTTPException ChatResponse :=
  try_except
    ('(context, srcs) ←
       match truthy (selected_text req) with
       | Some sel =>
           mret (sel, [ {[ "text" := slice_to sel 200 +:+ "...";
                           "source" := "Selected Text" ]} : dict ])
       | None =>
           mret (system_context,
                 [ {[ "text" := "AI Knowledge Base"; "source" := "Gemini" ]} : dict ])
       end ;
     resp ← gemini_generate gemini_service (message req) context ;
     db_save_chat db_service (message req) resp (selected_text req) ;;
     mret {| response := resp; sources := srcs |})
    (fun e => raise {| status_code := 500; detail := str e |}).
End handler.
End At37.

(** The definition at lines 120-159: the same steps, with diagnostics. *)
Module At120.
Section handler.
Context (gemini_service : GeminiService) (db_service : DatabaseService).

Definition chat (req : ChatMessage) : M HTTPException ChatResponse :=
  try_except
    (print ("📩 Received: " +:+ message req) ;;
     '(context, srcs) ←
       match truthy (selected_text req) with
       | Some sel =>
           print "📝 Using selected text" ;;
           mret (sel, [ {[ "text" := slice_to sel 200 +:+ "...";
                           "source" := "Selected Text" ]} : dict ])
       | None =>
           print "💭 Using general context" ;;
           mret (system_context,
                 [ {[ "text" := "AI Knowledge Base"; "source" := "Gemini" ]} : dict ])
       end ;
     print "🤖 Calling Gemini..." ;;
     resp ← gemini_generate gemini_service (message req) context ;
     print ("✅ Got response: " +:+ slice_to resp 50) ;;
     print "💾 Saving to database..." ;;
     db_save_chat db_service (message req) resp (selected_text req) ;;
     print "✅ Saved!" ;;
     mret {| response := resp; sources := srcs |})
    (fun e =>
       print ("❌ ERROR: " +:+ str e) ;;
       print_exc ;;
       raise {| status_code := 500; detail := str e |}).
End handler.
End At120.

(** The definition at lines 161-220: generation and persistence each in a
    [try] of their own, inside the outer one. *)
Module At161.
Section handler.
Context (gemini_service : GeminiService) (db_service : DatabaseService).

Definition chat (req : ChatMessage) : M HTTPException ChatResponse :=
  print (str_mul "=" 50) ;;
  print "📩 CHAT REQUEST RECEIVED" ;;
  print ("Message: " +:+ message req) ;;
  print ("Selected text: " +:+ format_optional (selected_text req)) ;;
  print (str_mul "=" 50) ;;
  try_except
    ('(context, srcs) ←
       match truthy (selected_text req) with
       | Some sel =>
           print "✅ Using selected text as context" ;;
           mret (sel, [ {[ "text" := slice_to sel 200 +:+ "...";
                           "source" := "Selected Text" ]} : dict ])
       | None =>
           print "✅ Using general knowledge context" ;;
           mret (system_context,
                 [ {[ "text" := "AI Knowledge Base"; "source" := "AI" ]} : dict ])
       end ;
     print "🤖 Calling AI service..." ;;
     resp ←
       try_except
         (resp ← gemini_generate gemini_service (message req) context ;
          print ("✅ AI Response received: " +:+ pretty (len resp)
                 +:+ " characters") ;;
          mret resp)
         (fun ai_error =>
            print ("❌ AI SERVICE ERROR: " +:+ type_name ai_error +:+ ": "
                   +:+ str ai_error) ;;
            print_exc ;;
            raise (Http {| status_code := 500;
                           detail := "AI service error: " +:+ str ai_error |})) ;
     print "💾 Saving to database..." ;;
     try_except
       (db_save_chat db_service (message req) resp (selected_text req) ;;
        print "✅ Saved to database")
       (fun db_error =>
          print ("⚠️ DATABASE SAVE WARNING: " +:+ str db_error)) ;;
     print "✅ Returning response to client" ;;
     mret {| response := resp; sources := srcs |})
    (fun e =>
       match e with
       | Http he =>
           print ("❌ HTTP EXCEPTION: " +:+ pretty (status_code he) +:+ " - "
                  +:+ detail he) ;;
           raise he
       | Other e =>
           print ("❌ UNEXPECTED ERROR: " +:+ type_name e +:+ ": " +:+ str e) ;;
           print_exc ;;
           raise {| status_code := 500; detail := "Server error: " +:+ str e |}
       end).
End handler.
End At161.

(** ** The route table *)

Inductive http_method := GET | POST.

#[global] Instance http_method_eq_dec : EqDecision http_method.
Proof. solve_decision. Defined.

(** The functions of [main.py] that are registered as routes; the three
    definitions of [chat] are told apart by the line of their decorator. *)
Inductive endpoint :=
| root
| chat_37
| signup
| signin
| chat_120
| chat_161
| health_check.

(** The decorators [@app.get] and [@app.post], in the order in which the
    module executes them: each appends a route to the application. *)
Definition routes : list (http_method * string * endpoint) :=
  [ (GET, "/", root);
    (POST, "/chat", chat_37);
    (POST, "/signup", signup);
    (POST, "/signin", signin);
    (POST, "/chat", chat_120);
    (POST, "/chat", chat_161);
    (GET, "/health", health_check) ].

(** The router of the framework tries the routes in the order of
    registration, and the first one whose method and path match handles the
    request: a later registration of the same method and path is never
    reached. *)
Fixpoint resolve_in (rs : list (http_method * string * endpoint))
    (m : http_method) (path : string) : option endpoint :=
  match rs with
  | [] => None
  | (m', path', f) :: rs' =>
      if decide (m' = m ∧ path' = path) then Some f else resolve_in rs' m path
  end.

Definition resolve : http_method -> string -> option endpoint :=
  resolve_in routes.

Section served.
Context (gemini_service : GeminiService) (db_service : DatabaseService).

(** The definition of [chat] registered under an endpoint. *)
Definition chat_at (f : endpoint)
  : option (ChatMessage -> M HTTPException ChatResponse) :=
  match f with
  | chat_37 => Some (At37.chat gemini_service db_service)
  | chat_120 => Some (At120.chat gemini_service db_service)
  | chat_161 => Some (At161.chat gemini_service db_service)
  | _ => None
  end.

(** [POST /chat]: the request is handled by the endpoint the router
    resolves it to. *)
Definition post_chat (req : ChatMessage) : M HTTPException ChatResponse :=
  match resolve POST "/chat" ≫= chat_at with
  | Some handler => handler req
  | None => raise {| status_code := 404; detail := "Not Found" |}
  end.
End served.

(** The three definitions of [chat], in the order of the file. *)
Definition chat_definitions (gemini_service : GeminiService)
    (db_service : DatabaseService)
  : list (ChatMessage -> M HTTPException ChatResponse) :=
  [ At37.chat gemini_service db_service;
    At120.chat gemini_service db_service;
    At161.chat gemini_service db_service ].

(** ** Observations on a trace *)

(** The arguments of the calls to [generate_response], oldest first. *)
Fixpoint generate_calls (t : list event) : list (string * string) :=
  match t with
  | [] => []
  | Gemini_generate_response msg context :: t' =>
      (msg, context) :: generate_calls t'
  | _ :: t' => generate_calls t'
  end.

(** The arguments of the calls to [save_chat], oldest first. *)
Fixpoint save_calls (t : list event)
  : list (string * string * option string) :=
  match t with
  | [] => []
  | Db_save_chat user_message bot_response sel :: t' =>
      (user_message, bot_response, sel) :: save_calls t'
  | _ :: t' => save_calls t'
  end.

Definition is_qdrant_call (ev : event) : bool :=
  match ev with
  | Qdrant_initialize_collection _ => true
  | _ => false
  end.

(** The operations on the vector database, oldest first. *)
Definition qdrant_calls (t : list event) : list event :=
  List.filter is_qdrant_call t.

(** ** The context choice of the specification *)

Inductive ContextKind := SelectedText | GeneralKnowledge.

Record ContextChoice := {
  kind : ContextKind;
  text : string
}.

(** The specification's choice: the selection when [selected_text] is
    present and non-empty, the fixed system context otherwise. *)
Definition context_choice (sel : option string) : ContextChoice :=
  match sel with
  | Some s =>
      if decide (s = "") then
        {| kind := GeneralKnowledge; text := system_context |}
      else {| kind := SelectedText; text := s |}
  | None => {| kind := GeneralKnowledge; text := system_context |}
  end.

(** The label an attribution list shows for a kind of context: only the
    selection is labelled "Selected Text". *)
Definition labelled_selected (srcs : list dict) : bool :=
  match srcs with
  | [d] => bool_decide (d !! "source" = Some "Selected Text")
  | _ => false
  end.

(** ** Sample services and requests *)

Definition gemini_ok : GeminiService :=
  {| generate_response := fun msg context => inr ("Answer: " +:+ msg) |}.

Definition gemini_down : GeminiService :=
  {| generate_response := fun msg context =>
       inl {| type_name := "ResourceExhausted"; str := "429 quota exceeded" |} |}.

Definition db_ok : DatabaseService :=
  {| initialize_tables := inr ();
     save_chat := fun user_message bot_response sel => inr () |}.

Definition db_down : DatabaseService :=
  {| initialize_tables := inr ();
     save_chat := fun user_message bot_response sel =>
       inl {| type_name := "ConnectionError"; str := "database unavailable" |} |}.

Definition ros_question : ChatMessage :=
  {| message := "What is ROS 2?"; selected_text := None |}.

Definition explain_short : ChatMessage :=
  {| message := "Explain this"; selected_text := Some "A node is a process." |}.

(** A selection of [n] times the character U+65E5, three bytes each. *)
Definition explain_kanji (n : nat) : ChatMessage :=
  {| message := "Explain this";
     selected_text := Some (utf8 (replicate n 26085%N)) |}.

(** ** The account endpoints *)

(** A Python object as [signup] and [signin] use one: they test its truth
    value, pass it on, and build [None], [True] and string constants.  The
    values of a JSON request and the results of the database service are
    objects of this kind. *)
Class Object (value : Type) := {
  truth : value -> bool;
  py_None : value;
  py_bool : bool -> value;
  py_str : string -> value
}.

Module Accounts.
Section accounts.
Context {value : Type} `{Object value}.

(** The user methods of [db_service] ([services/database.py] is an external
    collaborator): each returns a dict, or raises. *)
Record UserService := {
  create_user :
    value -> value -> value -> value -> value -> value ->
    Exception + gmap string value;
  authenticate_user : value -> value -> Exception + gmap string value
}.

Inductive user_call :=
| Create_user (name email password experience_level software_background
               hardware_background : value)
| Authenticate_user (email password : value).

(** What the body of the [try] of [signup] and [signin] can raise: the
    [HTTPException] of its [else] branch, whose detail is an object, an
    exception of the database service, or the [KeyError] of a subscript. *)
Inductive thrown :=
| Http_error (status : Z) (detail_value : value)
| Service_error (e : Exception)
| KeyError (key : string).

(** A computation that may raise an [E], with the calls to the user methods
    it made, oldest first. *)
Definition W (E A : Type) : Type := (E + A) * list user_call.

#[global] Instance W_ret {E} : MRet (W E) := fun A a => (inr a, []).

#[global] Instance W_bind {E} : MBind (W E) := fun A B k m =>
  match m with
  | (inl e, t) => (inl e, t)
  | (inr a, t) => let (r, t') := k a in (r, t ++ t')
  end.

Definition throw {E A} (e : E) : W E A := (inl e, []).

(** [try: m except Exception as e: h e] *)
Definition catch {E E' A} (m : W E A) (h : E -> W E' A) : W E' A :=
  match m with
  | (inl e, t) => let (r, t') := h e in (r, t ++ t')
  | (inr a, t) => (inr a, t)
  end.

Definition invoke {A} (c : user_call) (r : Exception + A) : W thrown A :=
  (match r with inl e => inl (Service_error e) | inr a => inr a end, [c]).

Definition outcome {E A} (m : W E A) : E + A := fst m.
Definition calls {E A} (m : W E A) : list user_call := snd m.

(** [d.get(key)] and [d.get(key, fallback)]: the fallback only when the key
    is absent. *)
Definition get (d : gmap string value) (key : string) : value :=
  default py_None (d !! key).

Definition get_or (d : gmap string value) (key : string) (fallback : value)
  : value :=
  default fallback (d !! key).

(** [d[key]], which raises [KeyError(key)] when the key is absent. *)
Definition subscript (d : gmap string value) (key : string) : W thrown value :=
  match d !! key with
  | Some v => mret v
  | None => throw (KeyError key)
  end.

(** [str(e)] in [except Exception as e].  What [str] gives for an
    [HTTPException] is the framework's business: [str_http] stands for it.
    [str] of a [KeyError] is the [repr] of its key; the keys here are the
    literals "success", "message" and "user". *)
Definition str_thrown (str_http : Z -> value -> string) (e : thrown) : string :=
  match e with
  | Http_error status detail_value => str_http status detail_value
  | Service_error e => str e
  | KeyError key => "'" +:+ key +:+ "'"
  end.

Context (str_http : Z -> value -> string) (db_service : UserService).

(** Lines 67-98. *)
Definition signup (request : gmap string value)
  : W HTTPException (gmap string value) :=
  catch
    (let name := get request "name" in
     let email := get request "email" in
     let password := get request "password" in
     let experience_level := get_or request "experienceLevel" (py_str "beginner") in
     let software_background := get_or request "softwareBackground" (py_str "") in
     let hardware_background := get_or request "hardwareBackground" (py_str "") in
     result ← invoke (Create_user name email password experience_level
                     software_background hardware_background)
                (create_user db_service name email password experience_level
                   software_background hardware_background) ;
     success ← subscript result "success" ;
     if truth success then
       auth_result ← invoke (Authenticate_user email password)
                       (authenticate_user db_service email password) ;
       user ← subscript auth_result "user" ;
       mret ({[ "success" := py_bool true; "user" := user ]}
             : gmap string value)
     else
       msg ← subscript result "message" ;
       throw (Http_error 400 msg))
    (fun e => throw {| status_code := 500;
                       detail := str_thrown str_http e |}).

(** Lines 100-118. *)
Definition signin (request : gmap string value)
  : W HTTPException (gmap string value) :=
  catch
    (let email := get request "email" in
     let password := get request "password" in
     result ← invoke (Authenticate_user email password)
                (authenticate_user db_service email password) ;
     success ← subscript result "success" ;
     if truth success then
       user ← subscript result "user" ;
       mret ({[ "success" := py_bool true; "user" := user ]}
             : gmap string value)
     else
       msg ← subscript result "message" ;
       throw (Http_error 401 msg))
    (fun e => throw {| status_code := 500;
                       detail := str_thrown str_http e |}).
End accounts.

Arguments UserService value : clear implicits.
Arguments user_call value : clear implicits.
Arguments thrown value : clear implicits.
End Accounts.

(** ** Sample objects and user services *)

Inductive json := JNull | JBool (b : bool) | JStr (s : string).

#[global] Instance json_object : Object json := {|
  truth v := match v with
             | JNull => false
             | JBool b => b
             | JStr "" => false
             | JStr _ => true
             end;
  py_None := JNull;
  py_bool := JBool;
  py_str := JStr
|}.

(** A database in which the e-mail address is already taken. *)
Definition users_taken : Accounts.UserService json :=
  {| Accounts.create_user := fun _ _ _ _ _ _ =>
       inr {[ "success" := JBool false;
              "message" := JStr "Email already registered" ]};
     Accounts.authenticate_user := fun _ _ =>
       inr {[ "success" := JBool false;
              "message" := JStr "Invalid email or password" ]} |}.

(** A database that accepts the user. *)
Definition users_fresh : Accounts.UserService json :=
  {| Accounts.create_user := fun _ _ _ _ _ _ =>
       inr {[ "success" := JBool true; "message" := JStr "User created" ]};
     Accounts.authenticate_user := fun email _ =>
       inr {[ "success" := JBool true; "user" := email ]} |}.

Definition str_http_sample (status : Z) (detail_value : json) : string :=
  pretty status +:+ ": "
  +:+ match detail_value with JStr s => s | _ => "" end.

Definition ada : gmap string json :=
  {[ "name" := JStr "Ada"; "email" := JStr "ada@example.org";
     "password" := JStr "secret" ]}.

(** A database that creates the user and then does not recognise it. *)
Definition users_created_only : Accounts.UserService json :=
  {| Accounts.create_user := fun _ _ _ _ _ _ =>
       inr {[ "success" := JBool true; "message" := JStr "User created" ]};
     Accounts.authenticate_user := fun _ _ =>
       inr {[ "success" := JBool false;
              "message" := JStr "Invalid email or password" ]} |}.

(** A database whose results are empty dicts. *)
Definition users_blank : Accounts.UserService json :=
  {| Accounts.create_user := fun _ _ _ _ _ _ => inr ∅;
     Accounts.authenticate_user := fun _ _ => inr ∅ |}.

(** * Properties *)

(** ** Strings *)

Lemma is_continuation_spec (c : ascii) :
  is_continuation c = ((128 <=? N_of_ascii c)%N && (N_of_ascii c <? 192)%N).
Proof. by destruct c as [[] [] [] [] [] [] [] []]. Qed.

Lemma is_continuation_byte (k : N) :
  (k < 256)%N →
  is_continuation (ascii_of_N k) = ((128 <=? k)%N && (k <? 192)%N).
Proof. intros Hk. by rewrite is_continuation_spec, N_ascii_embedding. Qed.

Lemma continuation_is_continuation (x : N) :
  is_continuation (continuation x) = true.
Proof.
  unfold continuation.
  assert (x mod 64 < 64)%N as Hmod by (apply N.mod_lt; lia).
  revert Hmod. generalize (x mod 64)%N. intros low Hlow.
  rewrite is_continuation_byte by lia.
  apply andb_true_intro. split; [apply N.leb_le | apply N.ltb_lt]; lia.
Qed.

Lemma lead_is_not_continuation (k : N) :
  (k < 128 ∨ 192 ≤ k < 256)%N → is_continuation (ascii_of_N k) = false.
Proof.
  intros Hk. rewrite is_continuation_byte by lia.
  apply andb_false_iff. rewrite N.leb_gt, N.ltb_ge. lia.
Qed.

(** The encoding of a character is a byte that is not a continuation byte,
    followed by continuation bytes only. *)
Lemma utf8_char_lead (cp : N) :
  ∃ c tail,
    utf8_char cp = String c tail ∧ is_continuation c = false
    ∧ len tail = 0.
Proof.
  unfold utf8_char.
  destruct (N.ltb_spec cp 128) as [H1|H1];
    [|destruct (N.ltb_spec cp 2048) as [H2|H2];
      [|destruct (N.ltb_spec cp 65536) as [H3|H3]]];
    do 2 eexists; (split; [reflexivity|]);
    (split; [apply lead_is_not_continuation|]);
    cbn [len]; rewrite ?continuation_is_continuation; try done.
  - lia.
  - assert (cp / 64 < 32)%N as Hq by (apply N.Div0.div_lt_upper_bound; lia).
    revert Hq. generalize (cp / 64)%N. lia.
  - assert (cp / 4096 < 16)%N as Hq
      by (apply N.Div0.div_lt_upper_bound; lia).
    revert Hq. generalize (cp / 4096)%N. lia.
  - assert ((cp / 262144) mod 8 < 8)%N as Hq by (apply N.mod_lt; lia).
    revert Hq. generalize ((cp / 262144) mod 8)%N. lia.
Qed.

Lemma str_app_assoc (s t u : string) : (s +:+ t) +:+ u = s +:+ t +:+ u.
Proof.
  induction s as [|c s IH]; [done|].
  change (String c ((s +:+ t) +:+ u) = String c (s +:+ t +:+ u)).
  by rewrite IH.
Qed.

Lemma len_app (s t : string) : len (s +:+ t) = len s + len t.
Proof.
  induction s as [|c s IH]; simpl; [reflexivity|].
  destruct (is_continuation c); by rewrite IH.
Qed.

Lemma len_utf8_char (cp : N) : len (utf8_char cp) = 1.
Proof.
  destruct (utf8_char_lead cp) as (c & tail & -> & Hc & Htail).
  cbn [len]. by rewrite Hc, Htail.
Qed.

(** [len] of an encoding is the number of characters encoded. *)
Lemma len_utf8 (cps : list N) : len (utf8 cps) = length cps.
Proof.
  induction cps as [|cp cps IH]; [reflexivity|].
  cbn [utf8 length]. by rewrite len_app, len_utf8_char, IH.
Qed.

Lemma utf8_app (cps cps' : list N) :
  utf8 (cps ++ cps') = utf8 cps +:+ utf8 cps'.
Proof.
  induction cps as [|cp cps IH]; [reflexivity|].
  cbn [utf8 app]. by rewrite IH, str_app_assoc.
Qed.

Lemma utf8_nil_iff (cps : list N) : utf8 cps = "" ↔ cps = [].
Proof.
  split; [|by intros ->].
  destruct cps as [|cp cps]; [done|]. cbn [utf8].
  by destruct (utf8_char_lead cp) as (c & tail & -> & _).
Qed.

Lemma slice_to_continued (tail s : string) (n : nat) :
  len tail = 0 →
  slice_to (tail +:+ s) n = tail +:+ slice_to s n.
Proof.
  induction tail as [|c tail IH]; [done|].
  simpl. destruct (is_continuation c); [|done].
  intros Htail. by rewrite IH.
Qed.

(** The slice of an encoding is the encoding of the first [n] characters:
    it never cuts inside a character. *)
Lemma slice_to_utf8 (cps : list N) (n : nat) :
  slice_to (utf8 cps) n = utf8 (take n cps).
Proof.
  revert n; induction cps as [|cp cps IH]; intros n;
    [by destruct n|].
  destruct (utf8_char_lead cp) as (c & tail & Hcp & Hc & Htail).
  destruct n as [|n]; cbn [take utf8]; rewrite Hcp; simpl; rewrite Hc;
    [done|].
  f_equal. by rewrite slice_to_continued, IH.
Qed.

Lemma len_slice_to (s : string) (n : nat) :
  len (slice_to s n) = n `min` len s.
Proof.
  revert n; induction s as [|c s IH]; intros n; simpl; [by destruct n|].
  destruct (is_continuation c) eqn:Hc; simpl; rewrite ?Hc; [apply IH|].
  destruct n as [|n]; simpl; [done|]. by rewrite Hc, IH.
Qed.

Lemma slice_to_prefix (s : string) (n : nat) :
  ∃ rest, s = slice_to s n +:+ rest.
Proof.
  revert n; induction s as [|c s IH]; intros n; [by exists ""|].
  simpl. destruct (is_continuation c).
  - destruct (IH n) as [rest Hrest]. exists rest. simpl. by rewrite Hrest at 1.
  - destruct n as [|n]; [by eexists|].
    destruct (IH n) as [rest Hrest]. exists rest. simpl. by rewrite Hrest at 1.
Qed.

Lemma slice_to_short (s : string) (n : nat) :
  len s ≤ n → slice_to s n = s.
Proof.
  revert n; induction s as [|c s IH]; intros n; simpl; [done|].
  destruct (is_continuation c).
  - intros Hlen. f_equal. by apply IH.
  - destruct n as [|n]; [lia|]. intros Hlen. f_equal. apply IH. lia.
Qed.

(** The literals of this file are encodings. *)
Example utf8_literals :
  utf8 [26085%N] = "日" ∧ utf8 [128233%N; 32%N; 233%N] = "📩 é"
  ∧ utf8 [46%N; 46%N; 46%N] = "...".
Proof. repeat split. Qed.

Lemma context_choice_None :
  context_choice None = {| kind := GeneralKnowledge; text := system_context |}.
Proof. reflexivity. Qed.

Lemma context_choice_empty :
  context_choice (Some "")
  = {| kind := GeneralKnowledge; text := system_context |}.
Proof. unfold context_choice. by case_decide. Qed.

Lemma context_choice_cons (c : ascii) (s : string) :
  context_choice (Some (String c s))
  = {| kind := SelectedText; text := String c s |}.
Proof. unfold context_choice. by case_decide. Qed.

(** ** Running a handler *)

(** The three shapes of [selected_text]: absent, empty, non-empty. *)
Ltac by_selection req :=
  let msg := fresh "msg" in
  let c := fresh "c" in
  let s := fresh "s" in
  destruct req as [msg [[|c s]|]];
  cbn [message selected_text] in *;
  rewrite ?context_choice_None, ?context_choice_empty, ?context_choice_cons in *;
  cbn [kind text] in *.

(** Unfolds a handler down to the calls to the services. *)
Ltac run :=
  cbv beta iota zeta delta
    [At37.chat At120.chat At161.chat try_except mbind M_bind mret M_ret
     gemini_generate db_save_chat call print print_exc emit raise
     fst snd app outcome trace truthy message selected_text
     generate_calls save_calls qdrant_calls List.filter is_qdrant_call].

(** Splits on the outcome of each service call a handler makes. *)
Ltac service_cases :=
  run;
  repeat
    (match goal with
     | |- context [generate_response ?g ?m ?c] =>
         destruct (generate_response g m c) as [?ai_error|?resp] eqn:?
     | |- context [save_chat ?d ?m ?r ?s] =>
         destruct (save_chat d m r s) as [?db_error|[]] eqn:?
     end;
     run).

(** Identifies the outcomes two hypotheses give for the same call, and
    closes the cases in which they differ. *)
Ltac same_outcome :=
  simplify_eq;
  repeat
    (match goal with
     | H1 : ?x = inl _, H2 : ?x = _ |- _ => rewrite H1 in H2
     | H1 : ?x = inr _, H2 : ?x = _ |- _ => rewrite H1 in H2
     end;
     simplify_eq).

(** One goal for each definition of [chat]. *)
Ltac each_definition H :=
  unfold chat_definitions in H;
  repeat (apply elem_of_cons in H as [->|H]);
  [ .. | by apply elem_of_nil in H ].

Lemma post_chat_served gemini_service db_service :
  post_chat gemini_service db_service = At37.chat gemini_service db_service.
Proof. reflexivity. Qed.

Lemma post_chat_is_a_definition gemini_service db_service :
  post_chat gemini_service db_service ∈ chat_definitions gemini_service db_service.
Proof. rewrite post_chat_served. apply elem_of_cons. by left. Qed.

(** ** Two runs *)

(** The definition at line 161 when generation fails: the failure is printed
    and wrapped, and nothing follows the generation call but diagnostics. *)
Example at_161_generation_down :
  At161.chat gemini_down db_ok explain_short
  = (inl {| status_code := 500;
            detail := "AI service error: 429 quota exceeded" |},
     [ Stdout "==================================================";
       Stdout "📩 CHAT REQUEST RECEIVED";
       Stdout "Message: Explain this";
       Stdout "Selected text: A node is a process.";
       Stdout "==================================================";
       Stdout "✅ Using selected text as context";
       Stdout "🤖 Calling AI service...";
       Gemini_generate_response "Explain this" "A node is a process.";
       Stdout "❌ AI SERVICE ERROR: ResourceExhausted: 429 quota exceeded";
       Traceback;
       Stdout "❌ HTTP EXCEPTION: 500 - AI service error: 429 quota exceeded" ]).
Proof. reflexivity. Qed.

(** The definition at line 37 when the record cannot be saved. *)
Example at_37_database_down :
  At37.chat gemini_ok db_down ros_question
  = (inl {| status_code := 500; detail := "database unavailable" |},
     [ Gemini_generate_response "What is ROS 2?" system_context;
       Db_save_chat "What is ROS 2?" "Answer: What is ROS 2?" None ]).
Proof. reflexivity. Qed.

(** ** Generation failure *)

(** C2: when the generation call raises, every definition of [chat] (and so
    the one that serves [POST /chat]) raises [HTTPException] with status 500
    and a detail that ends with the message of the failure, makes no call to
    [save_chat], and has called [generate_response] exactly once. *)
Theorem generation_failure_is_fatal
    gemini_service db_service h (req : ChatMessage) (e : Exception) :
  h ∈ chat_definitions gemini_service db_service →
  generate_response gemini_service (message req)
    (text (context_choice (selected_text req))) = inl e →
  (∃ prefix, outcome (h req)
             = inl {| status_code := 500; detail := prefix +:+ str e |}) ∧
  save_calls (trace (h req)) = [] ∧
  generate_calls (trace (h req))
  = [ (message req, text (context_choice (selected_text req))) ].
Proof.
  intros Hh Hgen.
  by_selection req; each_definition Hh; service_cases; same_outcome;
    (split; [first [by exists "" | by exists "AI service error: "] | done]).
Qed.

Lemma generation_failure_is_fatal_witness :
  (∃ prefix, outcome (post_chat gemini_down db_ok ros_question)
             = inl {| status_code := 500;
                      detail := prefix +:+ "429 quota exceeded" |}) ∧
  save_calls (trace (post_chat gemini_down db_ok ros_question)) = [] ∧
  generate_calls (trace (post_chat gemini_down db_ok ros_question))
  = [ ("What is ROS 2?", system_context) ].
Proof.
  apply (generation_failure_is_fatal gemini_down db_ok
           (post_chat gemini_down db_ok) ros_question
           {| type_name := "ResourceExhausted"; str := "429 quota exceeded" |}).
  - apply post_chat_is_a_definition.
  - reflexivity.
Defined.

(** ** Persistence failure *)

(** In the definitions at lines 37 and 120 the call to [save_chat] sits in
    the same [try] as the generation call: its failure becomes the failure of
    the request. *)
Lemma save_failure_is_fatal_at_37_and_120
    gemini_service db_service h (req : ChatMessage) (resp : string)
    (e : Exception) :
  h ∈ [ At37.chat gemini_service db_service;
        At120.chat gemini_service db_service ] →
  generate_response gemini_service (message req)
    (text (context_choice (selected_text req))) = inr resp →
  save_chat db_service (message req) resp (selected_text req) = inl e →
  outcome (h req) = inl {| status_code := 500; detail := str e |}.
Proof.
  intros Hh Hgen Hsave. by_selection req;
    repeat (apply elem_of_cons in Hh as [->|Hh]);
    try (by apply elem_of_nil in Hh);
    service_cases; by same_outcome.
Qed.

(** The definition at line 161 keeps the response whatever [save_chat]
    does. *)
Lemma save_failure_is_suppressed_at_161
    gemini_service db_service (req : ChatMessage) (resp : string) :
  generate_response gemini_service (message req)
    (text (context_choice (selected_text req))) = inr resp →
  ∃ srcs, outcome (At161.chat gemini_service db_service req)
          = inr {| response := resp; sources := srcs |}.
Proof.
  intros Hgen. by_selection req; service_cases; same_outcome; by eexists.
Qed.

(** C1: a request whose answer is generated and whose record cannot be
    saved.  [POST /chat] resolves to the definition registered first, at
    line 37, and the request fails with status 500 and the message of the
    persistence failure; the definition at line 161, registered last for the
    same route, returns the generated answer for the same request. *)
Theorem save_failure_fails_the_served_request :
  resolve POST "/chat" = Some chat_37 ∧
  outcome (post_chat gemini_ok db_down ros_question)
  = inl {| status_code := 500; detail := "database unavailable" |} ∧
  outcome (At161.chat gemini_ok db_down ros_question)
  = inr {| response := "Answer: What is ROS 2?";
           sources := [ {[ "text" := "AI Knowledge Base"; "source" := "AI" ]} ] |}.
Proof. repeat split. Qed.

(** ** Requests without a selection *)

(** C3: for a request whose [selected_text] is absent or empty, the handler
    that serves [POST /chat] (and each of the definitions at lines 37 and
    120) calls the generation service once, with the message and the fixed
    system context; a response it returns carries the generated text
    unchanged and the single attribution
    [{"text": "AI Knowledge Base", "source": "Gemini"}]; and it does return
    one when generation and persistence succeed. *)
Theorem no_selection_uses_the_system_context
    gemini_service db_service h (req : ChatMessage) :
  h ∈ [ post_chat gemini_service db_service;
        At37.chat gemini_service db_service;
        At120.chat gemini_service db_service ] →
  selected_text req = None ∨ selected_text req = Some "" →
  generate_calls (trace (h req)) = [ (message req, system_context) ] ∧
  (∀ r, outcome (h req) = inr r →
        generate_response gemini_service (message req) system_context
        = inr (response r) ∧
        sources r
        = [ {[ "text" := "AI Knowledge Base"; "source" := "Gemini" ]} ]) ∧
  (∀ resp,
     generate_response gemini_service (message req) system_context = inr resp →
     save_chat db_service (message req) resp (selected_text req) = inr () →
     outcome (h req)
     = inr {| response := resp;
              sources := [ {[ "text" := "AI Knowledge Base";
                              "source" := "Gemini" ]} ] |}).
Proof.
  intros Hh Hsel. rewrite post_chat_served in Hh.
  destruct req as [msg sel]; cbn in Hsel.
  repeat (apply elem_of_cons in Hh as [->|Hh]);
    try (by apply elem_of_nil in Hh);
    destruct Hsel as [->| ->]; service_cases;
    (split; [reflexivity|]); split; intros; by same_outcome.
Qed.

Lemma no_selection_uses_the_system_context_witness :
  generate_calls (trace (post_chat gemini_ok db_ok ros_question))
  = [ ("What is ROS 2?", system_context) ] ∧
  outcome (post_chat gemini_ok db_ok ros_question)
  = inr {| response := "Answer: What is ROS 2?";
           sources := [ {[ "text" := "AI Knowledge Base";
                           "source" := "Gemini" ]} ] |}.
Proof.
  destruct (no_selection_uses_the_system_context gemini_ok db_ok
              (post_chat gemini_ok db_ok) ros_question) as (Hcalls & _ & Hret).
  - apply elem_of_cons. by left.
  - by left.
  - split; [exact Hcalls|]. by apply Hret.
Defined.

(** The definition at line 161 labels the fixed attribution "AI". *)
Lemma no_selection_label_at_161
    gemini_service db_service (req : ChatMessage) (r : ChatResponse) :
  selected_text req = None ∨ selected_text req = Some "" →
  outcome (At161.chat gemini_service db_service req) = inr r →
  sources r = [ {[ "text" := "AI Knowledge Base"; "source" := "AI" ]} ].
Proof.
  intros Hsel. destruct req as [msg sel]; cbn in Hsel.
  destruct Hsel as [->| ->]; service_cases; intros; by same_outcome.
Qed.

(** ** Requests with a selection *)

(** The request of a handler whose [selected_text] is the string [sel]. *)
Ltac with_selection req sel :=
  let msg := fresh "msg" in
  let o := fresh "o" in
  destruct req as [msg o]; cbn [message selected_text] in *; subst o;
  destruct sel; [done|].

(** C4: for a request whose [selected_text] is a non-empty string of
    characters [chars], every definition of [chat] calls the generation
    service once, with the message and the selection as context; a response
    it returns has exactly one attribution, whose "text" is the first 200
    characters of the selection (all of them when there are fewer) followed
    by "..." and whose "source" is "Selected Text"; and it does return one
    when generation and persistence succeed. *)
Theorem selection_is_context_and_attribution
    gemini_service db_service h (req : ChatMessage) (chars : list N) :
  h ∈ chat_definitions gemini_service db_service →
  selected_text req = Some (utf8 chars) →
  chars ≠ [] →
  generate_calls (trace (h req)) = [ (message req, utf8 chars) ] ∧
  (∀ r, outcome (h req) = inr r →
        sources r = [ {[ "text" := utf8 (take 200 chars) +:+ "...";
                         "source" := "Selected Text" ]} ]) ∧
  (∀ resp,
     generate_response gemini_service (message req) (utf8 chars) = inr resp →
     save_chat db_service (message req) resp (selected_text req) = inr () →
     outcome (h req)
     = inr {| response := resp;
              sources := [ {[ "text" := utf8 (take 200 chars) +:+ "...";
                              "source" := "Selected Text" ]} ] |}).
Proof.
  intros Hh Hsel Hne. rewrite <- utf8_nil_iff in Hne.
  rewrite <- slice_to_utf8. revert Hsel Hne. generalize (utf8 chars).
  intros sel Hsel Hne. with_selection req sel.
  each_definition Hh; service_cases;
    (split; [reflexivity|]); split; intros; by same_outcome.
Qed.

Lemma selection_is_context_and_attribution_witness :
  generate_calls (trace (post_chat gemini_ok db_ok (explain_kanji 210)))
  = [ ("Explain this", utf8 (replicate 210 26085%N)) ] ∧
  outcome (post_chat gemini_ok db_ok (explain_kanji 210))
  = inr {| response := "Answer: Explain this";
           sources := [ {[ "text" := utf8 (replicate 200 26085%N) +:+ "...";
                           "source" := "Selected Text" ]} ] |}.
Proof.
  destruct (selection_is_context_and_attribution gemini_ok db_ok
              (post_chat gemini_ok db_ok) (explain_kanji 210)
              (replicate 210 26085%N)) as (Hcalls & _ & Hret).
  - apply post_chat_is_a_definition.
  - reflexivity.
  - discriminate.
  - split; [exact Hcalls|].
    refine (Hret "Answer: Explain this" _ _); reflexivity.
Defined.

(** ** The choice of context *)

Lemma labelled_selected_selection (excerpt : string) :
  labelled_selected
    [ {[ "text" := excerpt; "source" := "Selected Text" ]} ] = true.
Proof.
  unfold labelled_selected. apply bool_decide_eq_true.
  rewrite lookup_insert_ne by done. apply lookup_singleton_eq.
Qed.

Lemma labelled_selected_fixed (label : string) :
  label ≠ "Selected Text" →
  labelled_selected
    [ {[ "text" := "AI Knowledge Base"; "source" := label ]} ] = false.
Proof.
  intros Hlabel. unfold labelled_selected. apply bool_decide_eq_false.
  rewrite lookup_insert_ne by done. rewrite lookup_singleton_eq. congruence.
Qed.

Lemma kind_context_choice (sel : option string) :
  kind (context_choice sel) = SelectedText ↔ ∃ s, sel = Some s ∧ s ≠ "".
Proof.
  destruct sel as [[|c s]|];
    rewrite ?context_choice_None, ?context_choice_empty, ?context_choice_cons;
    cbn; split; try done.
  - intros (s & ? & ?). by simplify_eq.
  - intros _. by eexists.
  - intros (s & ? & ?). by simplify_eq.
Qed.

Lemma generate_called_once
    gemini_service db_service h (req : ChatMessage) :
  h ∈ chat_definitions gemini_service db_service →
  generate_calls (trace (h req))
  = [ (message req, text (context_choice (selected_text req))) ].
Proof.
  intros Hh. by_selection req; each_definition Hh; by service_cases.
Qed.

(** C5: every definition of [chat] calls the generation service exactly
    once, with the text of the one context the specification chooses from
    [selected_text]: the selection if and only if [selected_text] is present
    and non-empty, the fixed system context otherwise.  The attribution of a
    response is labelled "Selected Text" exactly in the first case, and the
    context passed is the same for every message. *)
Theorem context_is_chosen_by_selection
    gemini_service db_service h (req : ChatMessage) :
  h ∈ chat_definitions gemini_service db_service →
  (kind (context_choice (selected_text req)) = SelectedText
   ↔ ∃ s, selected_text req = Some s ∧ s ≠ "") ∧
  (kind (context_choice (selected_text req)) = SelectedText →
   selected_text req = Some (text (context_choice (selected_text req)))) ∧
  (kind (context_choice (selected_text req)) = GeneralKnowledge →
   text (context_choice (selected_text req)) = system_context) ∧
  generate_calls (trace (h req))
  = [ (message req, text (context_choice (selected_text req))) ] ∧
  (∀ r, outcome (h req) = inr r →
        (labelled_selected (sources r) = true
         ↔ kind (context_choice (selected_text req)) = SelectedText)) ∧
  (∀ msg' : string,
     snd <$> generate_calls
               (trace (h {| message := msg';
                            selected_text := selected_text req |}))
     = snd <$> generate_calls (trace (h req))).
Proof.
  intros Hh. split; [apply kind_context_choice|].
  split; [by by_selection req|].
  split; [by by_selection req|].
  split; [by apply (generate_called_once gemini_service db_service)|].
  split;
    [|intros msg';
      by rewrite !(generate_called_once gemini_service db_service h) by done].
  by_selection req; each_definition Hh; service_cases;
    intros r Hr; same_outcome; cbn [sources];
    rewrite ?labelled_selected_selection,
      ?labelled_selected_fixed by done; done.
Qed.

Lemma context_is_chosen_by_selection_witness :
  generate_calls (trace (post_chat gemini_ok db_down explain_short))
  = [ ("Explain this", "A node is a process.") ] ∧
  snd <$> generate_calls
            (trace (post_chat gemini_ok db_down
                      {| message := "";
                         selected_text := Some "A node is a process." |}))
  = [ "A node is a process." ].
Proof.
  destruct (context_is_chosen_by_selection gemini_ok db_down
              (post_chat gemini_ok db_down) explain_short)
    as (_ & _ & _ & Hcalls & _ & Hmsg).
  - apply post_chat_is_a_definition.
  - split; [exact Hcalls|]. exact (Hmsg "").
Defined.

(** ** The excerpt *)

(** A response returned for a request with the non-empty selection [sel]
    has the attribution built from [sel[:200] + "..."]. *)
Lemma sources_of_selection
    gemini_service db_service h (req : ChatMessage) (sel : string)
    (r : ChatResponse) :
  h ∈ chat_definitions gemini_service db_service →
  selected_text req = Some sel →
  sel ≠ "" →
  outcome (h req) = inr r →
  sources r = [ {[ "text" := slice_to sel 200 +:+ "...";
                   "source" := "Selected Text" ]} ].
Proof.
  intros Hh Hsel Hne. with_selection req sel.
  each_definition Hh; service_cases; intros; by same_outcome.
Qed.

(** A request whose answer is generated and whose record is saved gets a
    response. *)
Lemma chat_returns
    gemini_service db_service h (req : ChatMessage) (resp : string) :
  h ∈ chat_definitions gemini_service db_service →
  generate_response gemini_service (message req)
    (text (context_choice (selected_text req))) = inr resp →
  save_chat db_service (message req) resp (selected_text req) = inr () →
  ∃ srcs, outcome (h req) = inr {| response := resp; sources := srcs |}.
Proof.
  intros Hh Hgen Hsave.
  by_selection req; each_definition Hh; service_cases; same_outcome;
    by eexists.
Qed.

(** A request fails only when a service call raised. *)
Lemma chat_fails_by_a_service
    gemini_service db_service h (req : ChatMessage) (he : HTTPException) :
  h ∈ chat_definitions gemini_service db_service →
  outcome (h req) = inl he →
  (∃ e, generate_response gemini_service (message req)
          (text (context_choice (selected_text req))) = inl e)
  ∨ (∃ resp e,
       generate_response gemini_service (message req)
         (text (context_choice (selected_text req))) = inr resp
       ∧ save_chat db_service (message req) resp (selected_text req) = inl e).
Proof.
  intros Hh.
  by_selection req; each_definition Hh; service_cases; intros;
    simplify_eq; eauto.
Qed.

Lemma lookup_text (excerpt label : string) :
  ({[ "text" := excerpt; "source" := label ]} : dict) !! "text" = Some excerpt.
Proof. apply lookup_insert_eq. Qed.

(** C6: when [selected_text] has 210 characters, the "text" of the
    attribution of a returned response has exactly 203 characters, the
    first 200 of the selection and the three of "..."; a response is
    returned when generation and persistence succeed. *)
Theorem excerpt_of_210_characters
    gemini_service db_service h (req : ChatMessage) (chars : list N) :
  h ∈ chat_definitions gemini_service db_service →
  selected_text req = Some (utf8 chars) →
  length chars = 210 →
  (∀ r, outcome (h req) = inr r →
        ∃ d excerpt,
          sources r = [d] ∧ d !! "text" = Some (utf8 excerpt)
          ∧ excerpt = take 200 chars ++ [46%N; 46%N; 46%N]
          ∧ length excerpt = 203 ∧ len (utf8 excerpt) = 203) ∧
  (∀ resp,
     generate_response gemini_service (message req) (utf8 chars) = inr resp →
     save_chat db_service (message req) resp (selected_text req) = inr () →
     ∃ srcs, outcome (h req) = inr {| response := resp; sources := srcs |}).
Proof.
  intros Hh Hsel Hlen.
  assert (utf8 chars ≠ "") as Hne.
  { rewrite utf8_nil_iff. by intros ->. }
  split.
  - intros r Hr. do 2 eexists. split; [|split; [|split; [reflexivity|]]].
    + by eapply sources_of_selection.
    + rewrite lookup_text, slice_to_utf8, utf8_app. reflexivity.
    + rewrite len_utf8, length_app, length_take, Hlen. done.
  - intros resp Hgen Hsave.
    apply (chat_returns gemini_service db_service); try done.
    rewrite Hsel. destruct (utf8 chars); [done|].
    by rewrite context_choice_cons.
Qed.

Lemma excerpt_of_210_characters_witness :
  ∃ r d excerpt,
    outcome (post_chat gemini_ok db_ok (explain_kanji 210)) = inr r
    ∧ sources r = [d]
    ∧ d !! "text" = Some (utf8 excerpt) ∧ length excerpt = 203.
Proof.
  destruct (excerpt_of_210_characters gemini_ok db_ok
              (post_chat gemini_ok db_ok) (explain_kanji 210)
              (replicate 210 26085%N))
    as [Hlen Hret].
  - apply post_chat_is_a_definition.
  - reflexivity.
  - reflexivity.
  - destruct (Hret "Answer: Explain this") as [srcs Hsrcs];
      [reflexivity..|].
    destruct (Hlen _ Hsrcs) as (d & excerpt & Hd & Htext & _ & Hexcerpt & _).
    by exists {| response := "Answer: Explain this"; sources := srcs |},
              d, excerpt.
Defined.

(** C7: for a non-empty [selected_text] of fewer than 200 characters the
    slice [selected_text[:200]] is the whole selection and raises nothing:
    every definition of [chat] fails only when a service call raised, and
    when generation and persistence succeed it returns the response whose
    attribution is the selection followed by "...". *)
Theorem short_selection_is_kept_whole
    gemini_service db_service h (req : ChatMessage) (chars : list N) :
  h ∈ chat_definitions gemini_service db_service →
  selected_text req = Some (utf8 chars) →
  chars ≠ [] →
  length chars < 200 →
  slice_to (utf8 chars) 200 = utf8 chars ∧
  len (slice_to (utf8 chars) 200) = length chars `min` 200 ∧
  (∀ he, outcome (h req) = inl he →
     (∃ e, generate_response gemini_service (message req) (utf8 chars)
           = inl e)
     ∨ (∃ resp e,
          generate_response gemini_service (message req) (utf8 chars)
          = inr resp
          ∧ save_chat db_service (message req) resp (selected_text req)
            = inl e)) ∧
  (∀ resp,
     generate_response gemini_service (message req) (utf8 chars) = inr resp →
     save_chat db_service (message req) resp (selected_text req) = inr () →
     outcome (h req)
     = inr {| response := resp;
              sources := [ {[ "text" := utf8 chars +:+ "...";
                              "source" := "Selected Text" ]} ] |}).
Proof.
  intros Hh Hsel Hne Hlen.
  assert (slice_to (utf8 chars) 200 = utf8 chars) as Hslice.
  { by rewrite slice_to_utf8, take_ge by lia. }
  rewrite <- utf8_nil_iff in Hne.
  assert (text (context_choice (selected_text req)) = utf8 chars) as Hctx.
  { rewrite Hsel. destruct (utf8 chars); [done|].
    by rewrite context_choice_cons. }
  split; [done|].
  split; [rewrite Hslice, len_utf8; lia|].
  split.
  - intros he Hhe. rewrite <- Hctx.
    by apply (chat_fails_by_a_service gemini_service db_service h req he).
  - intros resp Hgen Hsave.
    destruct (chat_returns gemini_service db_service h req resp)
      as [srcs Hsrcs]; [done | by rewrite Hctx | done |].
    pose proof (sources_of_selection _ _ _ _ _ _ Hh Hsel Hne Hsrcs) as Hs.
    cbn [sources] in Hs. by rewrite Hsrcs, Hs, Hslice.
Qed.

Lemma short_selection_is_kept_whole_witness :
  slice_to (utf8 (replicate 100 26085%N)) 200 = utf8 (replicate 100 26085%N) ∧
  outcome (post_chat gemini_ok db_ok (explain_kanji 100))
  = inr {| response := "Answer: Explain this";
           sources := [ {[ "text" := utf8 (replicate 100 26085%N) +:+ "...";
                           "source" := "Selected Text" ]} ] |}.
Proof.
  destruct (short_selection_is_kept_whole gemini_ok db_ok
              (post_chat gemini_ok db_ok) (explain_kanji 100)
              (replicate 100 26085%N)) as (Hslice & _ & _ & Hret).
  - apply post_chat_is_a_definition.
  - reflexivity.
  - discriminate.
  - cbn. lia.
  - split; [exact Hslice|].
    refine (Hret "Answer: Explain this" _ _); reflexivity.
Defined.

(** ** The attribution list *)

(** C8: the attribution list of every response a definition of [chat]
    returns has exactly one entry, on either branch; it is not empty. *)
Theorem sources_has_one_entry
    gemini_service db_service h (req : ChatMessage) (r : ChatResponse) :
  h ∈ chat_definitions gemini_service db_service →
  outcome (h req) = inr r →
  length (sources r) = 1 ∧ sources r ≠ [].
Proof.
  intros Hh.
  by_selection req; each_definition Hh; service_cases; intros;
    by simplify_eq.
Qed.

Lemma sources_has_one_entry_witness :
  length [ {[ "text" := "AI Knowledge Base"; "source" := "Gemini" ]} : dict ]
  = 1
  ∧ [ {[ "text" := "AI Knowledge Base"; "source" := "Gemini" ]} : dict ] ≠ [].
Proof.
  apply (sources_has_one_entry gemini_ok db_ok (post_chat gemini_ok db_ok)
           ros_question
           {| response := "Answer: What is ROS 2?";
              sources := [ {[ "text" := "AI Knowledge Base";
                              "source" := "Gemini" ]} ] |}).
  - apply post_chat_is_a_definition.
  - reflexivity.
Defined.

(** ** The vector database *)

(** The start-up hook is where the vector database is used: it sets up the
    collection, after the tables. *)
Lemma startup_event_calls_qdrant qdrant_service db_service :
  initialize_tables db_service = inr () →
  qdrant_calls (trace (startup_event qdrant_service db_service))
  = [ Qdrant_initialize_collection 768 ].
Proof.
  intros Htables. unfold startup_event, call, print, emit.
  rewrite Htables. cbn. by destruct (initialize_collection _ _) as [?|[]].
Qed.

(** C9: no definition of [chat], and so no request to [POST /chat], succeeds
    or fails having performed an operation on the vector database. *)
Theorem chat_makes_no_qdrant_call
    gemini_service db_service (req : ChatMessage) :
  Forall (fun h => qdrant_calls (trace (h req)) = [])
    (post_chat gemini_service db_service
     :: chat_definitions gemini_service db_service).
Proof.
  rewrite post_chat_served. unfold chat_definitions.
  repeat apply Forall_cons_2; [..|apply Forall_nil_2];
    by_selection req; by service_cases.
Qed.

(** C10: for a request with a non-empty [selected_text], whatever its
    length, the "text" of the attribution of a returned response is the
    first [min(len, 200)] characters of the selection followed by "...",
    and has [min(len, 200) + 3] characters; a response is returned when
    generation and persistence succeed. *)
Theorem excerpt_is_slice_and_ellipsis
    gemini_service db_service h (req : ChatMessage) (chars : list N) :
  h ∈ chat_definitions gemini_service db_service →
  selected_text req = Some (utf8 chars) →
  chars ≠ [] →
  (∀ r, outcome (h req) = inr r →
        ∃ excerpt,
          sources r = [ {[ "text" := utf8 excerpt +:+ "...";
                           "source" := "Selected Text" ]} ]
          ∧ excerpt = take 200 chars
          ∧ (∃ rest, chars = excerpt ++ rest)
          ∧ length excerpt = length chars `min` 200
          ∧ len (utf8 excerpt +:+ "...") = length chars `min` 200 + 3) ∧
  (∀ resp,
     generate_response gemini_service (message req) (utf8 chars) = inr resp →
     save_chat db_service (message req) resp (selected_text req) = inr () →
     ∃ srcs, outcome (h req) = inr {| response := resp; sources := srcs |}).
Proof.
  intros Hh Hsel Hne. rewrite <- utf8_nil_iff in Hne. split.
  - intros r Hr. exists (take 200 chars).
    split;
      [rewrite <- slice_to_utf8; by eapply sources_of_selection|].
    split; [reflexivity|].
    split; [exists (drop 200 chars); by rewrite take_drop|].
    rewrite len_app, len_utf8, length_take.
    change (len "...") with 3. lia.
  - intros resp Hgen Hsave.
    apply (chat_returns gemini_service db_service); try done.
    rewrite Hsel. destruct (utf8 chars); [done|].
    by rewrite context_choice_cons.
Qed.

Lemma excerpt_is_slice_and_ellipsis_witness :
  ∃ r, outcome (post_chat gemini_ok db_ok (explain_kanji 70)) = inr r
       ∧ sources r = [ {[ "text" := utf8 (replicate 70 26085%N) +:+ "...";
                          "source" := "Selected Text" ]} ]
       ∧ len (utf8 (replicate 70 26085%N) +:+ "...") = 70 `min` 200 + 3.
Proof.
  destruct (excerpt_is_slice_and_ellipsis gemini_ok db_ok
              (post_chat gemini_ok db_ok) (explain_kanji 70)
              (replicate 70 26085%N)) as [Hexcerpt Hret].
  - apply post_chat_is_a_definition.
  - reflexivity.
  - discriminate.
  - destruct (Hret "Answer: Explain this") as [srcs Hsrcs];
      [reflexivity..|].
    destruct (Hexcerpt _ Hsrcs) as (excerpt & Hd & -> & _ & _ & Hlen).
    eexists. split; [exact Hsrcs|]. split; [exact Hd|exact Hlen].
Defined.

(** * Further properties *)

(** ** The chat handlers *)

(** X1: when generation succeeds, every definition of [chat] calls
    [save_chat] exactly once, with the message, the generated text and
    [selected_text] as the request has it (an empty selection is recorded as
    the empty string, not as [None]). *)
Theorem chat_saves_the_exchange_once
    gemini_service db_service h (req : ChatMessage) (resp : string) :
  h ∈ chat_definitions gemini_service db_service →
  generate_response gemini_service (message req)
    (text (context_choice (selected_text req))) = inr resp →
  save_calls (trace (h req)) = [ (message req, resp, selected_text req) ].
Proof.
  intros Hh Hgen.
  by_selection req; each_definition Hh; service_cases; by same_outcome.
Qed.

Lemma chat_saves_the_exchange_once_witness :
  save_calls (trace (At161.chat gemini_ok db_down
                       {| message := "Hi"; selected_text := Some "" |}))
  = [ ("Hi", "Answer: Hi", Some "") ].
Proof.
  apply (chat_saves_the_exchange_once gemini_ok db_down
           (At161.chat gemini_ok db_down)
           {| message := "Hi"; selected_text := Some "" |} "Answer: Hi").
  - unfold chat_definitions. do 2 (apply elem_of_cons; right).
    apply elem_of_cons. by left.
  - reflexivity.
Defined.

(** X2: the definitions at lines 37 and 120 differ in diagnostics only: for
    every request and every behaviour of the services they have the same
    outcome and make the same calls to [generate_response] and
    [save_chat]. *)
Theorem chat_at_120_refines_chat_at_37
    gemini_service db_service (req : ChatMessage) :
  outcome (At120.chat gemini_service db_service req)
  = outcome (At37.chat gemini_service db_service req) ∧
  generate_calls (trace (At120.chat gemini_service db_service req))
  = generate_calls (trace (At37.chat gemini_service db_service req)) ∧
  save_calls (trace (At120.chat gemini_service db_service req))
  = save_calls (trace (At37.chat gemini_service db_service req)).
Proof. by_selection req; by service_cases. Qed.

(** X3: the outcome of the definition at line 161 does not depend on the
    database service: two database services, whatever each does with
    [save_chat], give the same response or the same failure. *)
Theorem chat_at_161_outcome_ignores_the_database
    gemini_service db_service db_service' (req : ChatMessage) :
  outcome (At161.chat gemini_service db_service req)
  = outcome (At161.chat gemini_service db_service' req).
Proof. by_selection req; by service_cases. Qed.

(** X4: the definition at line 161 fails only when generation raised, and
    then with the detail "AI service error: " followed by the message: the
    handler of its outer [try] for other exceptions ("Server error: ") is
    never the one that answers. *)
Theorem chat_at_161_fails_by_generation_only
    gemini_service db_service (req : ChatMessage) (he : HTTPException) :
  outcome (At161.chat gemini_service db_service req) = inl he →
  ∃ e,
    generate_response gemini_service (message req)
      (text (context_choice (selected_text req))) = inl e
    ∧ he = {| status_code := 500;
              detail := "AI service error: " +:+ str e |}.
Proof.
  by_selection req; service_cases; intros; simplify_eq; by eexists.
Qed.

Lemma chat_at_161_fails_by_generation_only_witness :
  ∃ e,
    generate_response gemini_down "Explain this" "A node is a process." = inl e
    ∧ {| status_code := 500;
         detail := "AI service error: 429 quota exceeded" |}
      = {| status_code := 500; detail := "AI service error: " +:+ str e |}.
Proof.
  apply (chat_at_161_fails_by_generation_only gemini_down db_ok explain_short
           {| status_code := 500;
              detail := "AI service error: 429 quota exceeded" |}).
  reflexivity.
Defined.

(** X5: a request to any definition of [chat] that fails, fails with status
    500: the handlers raise no other status. *)
Theorem chat_fails_with_status_500
    gemini_service db_service h (req : ChatMessage) (he : HTTPException) :
  h ∈ chat_definitions gemini_service db_service →
  outcome (h req) = inl he →
  status_code he = 500%Z.
Proof.
  intros Hh.
  by_selection req; each_definition Hh; service_cases; intros; by simplify_eq.
Qed.

Lemma chat_fails_with_status_500_witness :
  status_code {| status_code := 500; detail := "database unavailable" |}
  = 500%Z.
Proof.
  apply (chat_fails_with_status_500 gemini_ok db_down
           (post_chat gemini_ok db_down) ros_question).
  - apply post_chat_is_a_definition.
  - reflexivity.
Defined.

(** X6: whatever the length of the selection, the "text" of an attribution
    in a returned response has at most 203 characters. *)
Theorem attribution_text_is_bounded
    gemini_service db_service h (req : ChatMessage) (r : ChatResponse)
    (d : dict) (excerpt : string) :
  h ∈ chat_definitions gemini_service db_service →
  outcome (h req) = inr r →
  d ∈ sources r →
  d !! "text" = Some excerpt →
  len excerpt ≤ 203.
Proof.
  intros Hh. revert r.
  by_selection req; each_definition Hh; service_cases;
    intros r Hr Hd Htext; simplify_eq; cbn [sources] in Hd;
    apply list_elem_of_singleton in Hd as ->;
    rewrite lookup_text in Htext; simplify_eq;
    first [ rewrite len_app, len_slice_to;
            change (len "...") with 3; lia
          | cbn; lia ].
Qed.

Lemma attribution_text_is_bounded_witness :
  len (utf8 (replicate 200 26085%N) +:+ "...") ≤ 203.
Proof.
  apply (attribution_text_is_bounded gemini_ok db_ok
           (post_chat gemini_ok db_ok) (explain_kanji 210)
           {| response := "Answer: Explain this";
              sources := [ {[ "text" := utf8 (replicate 200 26085%N) +:+ "...";
                              "source" := "Selected Text" ]} ] |}
           {[ "text" := utf8 (replicate 200 26085%N) +:+ "...";
              "source" := "Selected Text" ]}).
  - apply post_chat_is_a_definition.
  - vm_compute. reflexivity.
  - apply list_elem_of_singleton. reflexivity.
  - apply lookup_text.
Defined.

(** ** Start-up and routing *)

(** X7: the start-up hook has no handler of its own: when
    [initialize_tables] raises, the exception is the outcome of the hook, the
    vector database is not touched and the ready line is not printed. *)
Theorem startup_stops_when_tables_fail
    qdrant_service db_service (e : Exception) :
  initialize_tables db_service = inl e →
  outcome (startup_event qdrant_service db_service) = inl e ∧
  trace (startup_event qdrant_service db_service)
  = [ Stdout "🚀 Starting up..."; Db_initialize_tables ].
Proof.
  intros Htables. unfold startup_event, call, print, emit.
  by rewrite Htables.
Qed.

Lemma startup_stops_when_tables_fail_witness :
  outcome (startup_event
             {| initialize_collection := fun _ => inr () |}
             {| initialize_tables :=
                  inl {| type_name := "OperationalError";
                         str := "connection refused" |};
                save_chat := fun _ _ _ => inr () |})
  = inl {| type_name := "OperationalError"; str := "connection refused" |}
  ∧ trace (startup_event
             {| initialize_collection := fun _ => inr () |}
             {| initialize_tables :=
                  inl {| type_name := "OperationalError";
                         str := "connection refused" |};
                save_chat := fun _ _ _ => inr () |})
    = [ Stdout "🚀 Starting up..."; Db_initialize_tables ].
Proof.
  apply (startup_stops_when_tables_fail
           {| initialize_collection := fun _ => inr () |}
           {| initialize_tables :=
                inl {| type_name := "OperationalError";
                       str := "connection refused" |};
              save_chat := fun _ _ _ => inr () |}).
  reflexivity.
Defined.

(** X8: the ready line is printed exactly when the hook completes, that is
    when both the tables and the collection were set up; the collection is
    set up after the tables, with vectors of size 768. *)
Theorem startup_ready_iff_both_initialised qdrant_service db_service :
  (Stdout "✅ Server ready!" ∈ trace (startup_event qdrant_service db_service)
   ↔ outcome (startup_event qdrant_service db_service) = inr ()) ∧
  (outcome (startup_event qdrant_service db_service) = inr ()
   ↔ initialize_tables db_service = inr ()
     ∧ initialize_collection qdrant_service 768 = inr ()) ∧
  (outcome (startup_event qdrant_service db_service) = inr () →
   trace (startup_event qdrant_service db_service)
   = [ Stdout "🚀 Starting up..."; Db_initialize_tables;
       Qdrant_initialize_collection 768; Stdout "✅ Server ready!" ]).
Proof.
  unfold startup_event, call, print, emit.
  destruct (initialize_tables db_service) as [e|[]];
    [|destruct (initialize_collection qdrant_service 768) as [e|[]]];
    cbn; rewrite ?elem_of_cons, ?elem_of_nil;
    (split;
     [split; [intros; destruct_or?; by simplify_eq | intros; simplify_eq; auto]
     |]);
    (split; [split; [intros; by simplify_eq | intros [? ?]; by simplify_eq]
            | done]).
Qed.

(** X9: the registrations of [chat] at lines 120 and 161 are dead: no
    method and no path resolve to them. *)
Theorem later_chat_routes_are_unreachable (m : http_method) (path : string) :
  resolve m path ≠ Some chat_120 ∧ resolve m path ≠ Some chat_161.
Proof.
  unfold resolve, routes. cbn [resolve_in].
  repeat case_decide; destruct_and?; simplify_eq; by split.
Qed.

(** ** The account endpoints *)

(** Unfolds [signup] and [signin] down to the calls to the database. *)
Ltac run_accounts :=
  cbv beta iota zeta delta
    [Accounts.signup Accounts.signin Accounts.catch Accounts.throw
     Accounts.invoke Accounts.subscript Accounts.str_thrown
     Accounts.outcome Accounts.calls
     mbind mret Accounts.W_bind Accounts.W_ret fst snd app].

(** Splits on each call, subscript and truth test the endpoint makes. *)
Ltac account_cases :=
  run_accounts;
  repeat
    (match goal with
     | |- context [Accounts.create_user ?d ?a1 ?a2 ?a3 ?a4 ?a5 ?a6] =>
         destruct (Accounts.create_user d a1 a2 a3 a4 a5 a6)
           as [?e|?result] eqn:?
     | |- context [Accounts.authenticate_user ?d ?a1 ?a2] =>
         destruct (Accounts.authenticate_user d a1 a2) as [?e|?result] eqn:?
     | |- context [@lookup _ _ _ _ ?k ?m] =>
         is_var m; destruct (m !! k) as [?v|] eqn:?
     | |- context [truth ?v] => destruct (truth v) eqn:?
     end;
     run_accounts).

(** Follows the hypotheses about the calls, subscripts and truth tests. *)
Ltac follow :=
  run_accounts;
  repeat
    (match goal with
     | H : ?x = _ |- context [?x] => rewrite H
     end;
     run_accounts).

Section account_properties.
Context {value : Type} `{Object value}.
Context (str_http : Z -> value -> string)
        (db_service : Accounts.UserService value).
Implicit Types (request result auth_result : gmap string value).

(** X10: [signup] asks the database to create the user for every request,
    without validating it: [create_user] is its first call, a missing name,
    e-mail address or password is passed as [None], a missing experience
    level as "beginner" and a missing background as the empty string; at
    most one call follows. *)
Theorem signup_creates_without_validation request :
  ∃ rest,
    Accounts.calls (Accounts.signup str_http db_service request)
    = Accounts.Create_user
        (default py_None (request !! "name"))
        (default py_None (request !! "email"))
        (default py_None (request !! "password"))
        (default (py_str "beginner") (request !! "experienceLevel"))
        (default (py_str "") (request !! "softwareBackground"))
        (default (py_str "") (request !! "hardwareBackground"))
      :: rest
    ∧ (rest = []
       ∨ rest = [ Accounts.Authenticate_user
                    (default py_None (request !! "email"))
                    (default py_None (request !! "password")) ]).
Proof.
  repeat
    match goal with
    | |- context [default py_None (request !! ?k)] =>
        change (default py_None (request !! k)) with (Accounts.get request k)
    | |- context [default (py_str ?s) (request !! ?k)] =>
        change (default (py_str s) (request !! k))
          with (Accounts.get_or request k (py_str s))
    end.
  account_cases; eexists; (split; [reflexivity|]); auto.
Qed.

(** X11: [signup] raises no status but 500: every failure, the rejection
    of the [else] branch included, leaves through [except Exception]. *)
Theorem signup_fails_with_status_500 request (he : HTTPException) :
  Accounts.outcome (Accounts.signup str_http db_service request) = inl he →
  status_code he = 500%Z.
Proof. account_cases; intros; by simplify_eq. Qed.

(** X12: when [create_user] reports no success, [signup] does not answer
    with the status 400 it raises: the request fails with status 500, the
    detail is [str] of that [HTTPException(400, result["message"])], and
    [authenticate_user] is not called. *)
Theorem signup_rejection_is_reported_as_500
    request result (success message : value) :
  Accounts.create_user db_service
    (Accounts.get request "name") (Accounts.get request "email")
    (Accounts.get request "password")
    (Accounts.get_or request "experienceLevel" (py_str "beginner"))
    (Accounts.get_or request "softwareBackground" (py_str ""))
    (Accounts.get_or request "hardwareBackground" (py_str ""))
  = inr result →
  result !! "success" = Some success →
  truth success = false →
  result !! "message" = Some message →
  Accounts.outcome (Accounts.signup str_http db_service request)
  = inl {| status_code := 500; detail := str_http 400 message |} ∧
  Accounts.calls (Accounts.signup str_http db_service request)
  = [ Accounts.Create_user
        (Accounts.get request "name") (Accounts.get request "email")
        (Accounts.get request "password")
        (Accounts.get_or request "experienceLevel" (py_str "beginner"))
        (Accounts.get_or request "softwareBackground" (py_str ""))
        (Accounts.get_or request "hardwareBackground" (py_str "")) ].
Proof. intros Hcreate Hsuccess Htruth Hmessage. by follow. Qed.

(** X13: when [create_user] reports success, [signup] authenticates with
    the e-mail address and password of the request and returns
    [{"success": True, "user": auth_result["user"]}]; it does not look at
    [auth_result["success"]]. *)
Theorem signup_returns_the_authenticated_user
    request result auth_result (success user : value) :
  Accounts.create_user db_service
    (Accounts.get request "name") (Accounts.get request "email")
    (Accounts.get request "password")
    (Accounts.get_or request "experienceLevel" (py_str "beginner"))
    (Accounts.get_or request "softwareBackground" (py_str ""))
    (Accounts.get_or request "hardwareBackground" (py_str ""))
  = inr result →
  result !! "success" = Some success →
  truth success = true →
  Accounts.authenticate_user db_service
    (Accounts.get request "email") (Accounts.get request "password")
  = inr auth_result →
  auth_result !! "user" = Some user →
  Accounts.outcome (Accounts.signup str_http db_service request)
  = inr {[ "success" := py_bool true; "user" := user ]} ∧
  Accounts.calls (Accounts.signup str_http db_service request)
  = [ Accounts.Create_user
        (Accounts.get request "name") (Accounts.get request "email")
        (Accounts.get request "password")
        (Accounts.get_or request "experienceLevel" (py_str "beginner"))
        (Accounts.get_or request "softwareBackground" (py_str ""))
        (Accounts.get_or request "hardwareBackground" (py_str ""));
      Accounts.Authenticate_user
        (Accounts.get request "email") (Accounts.get request "password") ].
Proof. intros Hcreate Hsuccess Htruth Hauth Huser. by follow. Qed.

(** X14: [signup] can fail after the user was created: when [create_user]
    reports success and [authenticate_user] then raises, or returns a result
    without "user", the request fails with status 500 although
    [create_user] was called and succeeded. *)
Theorem signup_can_fail_after_creating
    request result (success : value) :
  Accounts.create_user db_service
    (Accounts.get request "name") (Accounts.get request "email")
    (Accounts.get request "password")
    (Accounts.get_or request "experienceLevel" (py_str "beginner"))
    (Accounts.get_or request "softwareBackground" (py_str ""))
    (Accounts.get_or request "hardwareBackground" (py_str ""))
  = inr result →
  result !! "success" = Some success →
  truth success = true →
  (∀ e,
     Accounts.authenticate_user db_service
       (Accounts.get request "email") (Accounts.get request "password")
     = inl e →
     Accounts.outcome (Accounts.signup str_http db_service request)
     = inl {| status_code := 500; detail := str e |}) ∧
  (∀ auth_result,
     Accounts.authenticate_user db_service
       (Accounts.get request "email") (Accounts.get request "password")
     = inr auth_result →
     auth_result !! "user" = None →
     Accounts.outcome (Accounts.signup str_http db_service request)
     = inl {| status_code := 500; detail := "'user'" |}).
Proof.
  intros Hcreate Hsuccess Htruth. split.
  - intros e Hauth. by follow.
  - intros auth_result Hauth Huser. by follow.
Qed.

(** X15: [signin] makes exactly one call, to [authenticate_user] with the
    e-mail address and password of the request ([None] when missing), and
    raises no status but 500. *)
Theorem signin_authenticates_once request :
  Accounts.calls (Accounts.signin str_http db_service request)
  = [ Accounts.Authenticate_user
        (default py_None (request !! "email"))
        (default py_None (request !! "password")) ] ∧
  (∀ he,
     Accounts.outcome (Accounts.signin str_http db_service request) = inl he →
     status_code he = 500%Z).
Proof.
  change (default py_None (request !! "email"))
    with (Accounts.get request "email").
  change (default py_None (request !! "password"))
    with (Accounts.get request "password").
  account_cases; (split; [reflexivity|]); intros; by simplify_eq.
Qed.

(** X16: when [authenticate_user] reports no success, [signin] does not
    answer with the status 401 it raises: the request fails with status 500
    and the detail is [str] of that
    [HTTPException(401, result["message"])]. *)
Theorem signin_rejection_is_reported_as_500
    request result (success message : value) :
  Accounts.authenticate_user db_service
    (Accounts.get request "email") (Accounts.get request "password")
  = inr result →
  result !! "success" = Some success →
  truth success = false →
  result !! "message" = Some message →
  Accounts.outcome (Accounts.signin str_http db_service request)
  = inl {| status_code := 500; detail := str_http 401 message |}.
Proof. intros Hauth Hsuccess Htruth Hmessage. by follow. Qed.

(** X17: [signin] returns a response exactly when [authenticate_user]
    returns a result whose "success" is true and that has a "user"; the
    response is [{"success": True, "user": result["user"]}]. *)
Theorem signin_returns_iff_authenticated request (r : gmap string value) :
  Accounts.outcome (Accounts.signin str_http db_service request) = inr r
  ↔ ∃ result success user,
      Accounts.authenticate_user db_service
        (Accounts.get request "email") (Accounts.get request "password")
      = inr result
      ∧ result !! "success" = Some success
      ∧ truth success = true
      ∧ result !! "user" = Some user
      ∧ r = {[ "success" := py_bool true; "user" := user ]}.
Proof.
  split.
  - account_cases; intros; simplify_eq; eauto 10.
  - intros (result & success & user & Hauth & Hsuccess & Htruth & Huser & ->).
    by follow.
Qed.

(** X18: a result of the database without the key "success" makes both
    endpoints fail with status 500 and the detail ['success'], the [str] of
    the [KeyError]. *)
Theorem missing_success_key_is_a_500 request result :
  result !! "success" = None →
  (Accounts.create_user db_service
     (Accounts.get request "name") (Accounts.get request "email")
     (Accounts.get request "password")
     (Accounts.get_or request "experienceLevel" (py_str "beginner"))
     (Accounts.get_or request "softwareBackground" (py_str ""))
     (Accounts.get_or request "hardwareBackground" (py_str ""))
   = inr result →
   Accounts.outcome (Accounts.signup str_http db_service request)
   = inl {| status_code := 500; detail := "'success'" |}) ∧
  (Accounts.authenticate_user db_service
     (Accounts.get request "email") (Accounts.get request "password")
   = inr result →
   Accounts.outcome (Accounts.signin str_http db_service request)
   = inl {| status_code := 500; detail := "'success'" |}).
Proof. intros Hsuccess. split; intros Hcall; by follow. Qed.
End account_properties.

Lemma signup_fails_with_status_500_witness :
  status_code {| status_code := 500;
                 detail := "400: Email already registered" |} = 500%Z.
Proof.
  apply (signup_fails_with_status_500 str_http_sample users_taken ada).
  reflexivity.
Defined.

Lemma signup_rejection_is_reported_as_500_witness :
  Accounts.outcome (Accounts.signup str_http_sample users_taken ada)
  = inl {| status_code := 500;
           detail := "400: Email already registered" |} ∧
  Accounts.calls (Accounts.signup str_http_sample users_taken ada)
  = [ Accounts.Create_user (JStr "Ada") (JStr "ada@example.org")
        (JStr "secret") (JStr "beginner") (JStr "") (JStr "") ].
Proof.
  refine (signup_rejection_is_reported_as_500 str_http_sample users_taken ada
            {[ "success" := JBool false;
               "message" := JStr "Email already registered" ]}
            (JBool false) (JStr "Email already registered") _ _ _ _);
    reflexivity.
Defined.

Lemma signup_returns_the_authenticated_user_witness :
  Accounts.outcome (Accounts.signup str_http_sample users_fresh ada)
  = inr {[ "success" := JBool true; "user" := JStr "ada@example.org" ]} ∧
  Accounts.calls (Accounts.signup str_http_sample users_fresh ada)
  = [ Accounts.Create_user (JStr "Ada") (JStr "ada@example.org")
        (JStr "secret") (JStr "beginner") (JStr "") (JStr "");
      Accounts.Authenticate_user (JStr "ada@example.org") (JStr "secret") ].
Proof.
  refine (signup_returns_the_authenticated_user str_http_sample users_fresh
            ada
            {[ "success" := JBool true; "message" := JStr "User created" ]}
            {[ "success" := JBool true; "user" := JStr "ada@example.org" ]}
            (JBool true) (JStr "ada@example.org") _ _ _ _ _);
    reflexivity.
Defined.

Lemma signup_can_fail_after_creating_witness :
  Accounts.outcome (Accounts.signup str_http_sample users_created_only ada)
  = inl {| status_code := 500; detail := "'user'" |}.
Proof.
  destruct (signup_can_fail_after_creating str_http_sample users_created_only
              ada
              {[ "success" := JBool true; "message" := JStr "User created" ]}
              (JBool true)) as [_ Hnouser]; [reflexivity..|].
  refine (Hnouser {[ "success" := JBool false;
                     "message" := JStr "Invalid email or password" ]} _ _);
    reflexivity.
Defined.

Lemma signin_rejection_is_reported_as_500_witness :
  Accounts.outcome (Accounts.signin str_http_sample users_taken ada)
  = inl {| status_code := 500;
           detail := "401: Invalid email or password" |}.
Proof.
  refine (signin_rejection_is_reported_as_500 str_http_sample users_taken ada
            {[ "success" := JBool false;
               "message" := JStr "Invalid email or password" ]}
            (JBool false) (JStr "Invalid email or password") _ _ _ _);
    reflexivity.
Defined.

Lemma missing_success_key_is_a_500_witness :
  Accounts.outcome (Accounts.signup str_http_sample users_blank ada)
  = inl {| status_code := 500; detail := "'success'" |} ∧
  Accounts.outcome (Accounts.signin str_http_sample users_blank ada)
  = inl {| status_code := 500; detail := "'success'" |}.
Proof.
  destruct (missing_success_key_is_a_500 str_http_sample users_blank ada ∅)
    as [Hsignup Hsignin]; [reflexivity|].
  split; [refine (Hsignup _) | refine (Hsignin _)]; reflexivity.
Defined.
